(** * A UDP group-chat server: membership registry, mailboxes and dispatcher

    Shallow embedding of [server.py].  The server keeps one process-wide list
    [chat_members] of [Member] objects; every datagram it receives is decoded,
    split on single spaces and handed to [handle_message], which mutates the
    list and sends exactly one datagram back to the sender. *)

From Stdlib Require Import ZArith Ascii String.
From stdpp Require Import base decidable option list strings.

Local Open Scope Z_scope.
Local Set Warnings "-clear-no-such-hyp".

(** ** Python exceptions and results *)

(** The two exceptions the code of [server.py] could raise on its own data:
    indexing or popping an empty list, and reading an attribute of [None]. *)
Inductive exn : Type :=
  | IndexError
  | AttributeError.

Inductive result (A : Type) : Type :=
  | Ok (a : A)
  | Raise (e : exn).
Arguments Ok {A} a.
Arguments Raise {A} e.

Global Instance result_bind : MBind result := λ A B k r,
  match r with
  | Ok a => k a
  | Raise e => Raise e
  end.

(** ** Strings as Python has them *)

Module PyStr.

(** [sep.join(xs)] *)
Definition join (sep : string) (xs : list string) : string :=
  String.concat sep xs.

(** [s.split(' ')]: with an explicit separator Python cuts the string at
    every occurrence of it, so a string with [n] spaces gives [n + 1]
    tokens, some of them possibly empty. *)
Fixpoint split_space (s : string) : list string :=
  match s with
  | EmptyString => [EmptyString]
  | String c s' =>
      if decide (c = " "%char) then EmptyString :: split_space s'
      else match split_space s' with
           | [] => [String c EmptyString]
           | tok :: toks => String c tok :: toks
           end
  end.

(** [s[:-1]]: all characters but the last; the empty string stays empty. *)
Fixpoint drop_last (s : string) : string :=
  match s with
  | EmptyString => EmptyString
  | String c EmptyString => EmptyString
  | String c s' => String c (drop_last s')
  end.

(** The one-character string ["\n"]. *)
Definition newline : string := String "010" EmptyString.

(** No character of [s] is a space. *)
Fixpoint no_space (s : string) : Prop :=
  match s with
  | EmptyString => True
  | String c s' => c ≠ " "%char ∧ no_space s'
  end.

End PyStr.

(** ** Data model *)

(** [sender_info] is the pair [(ip, port)] that [recvfrom] returns. *)
Definition sender_info : Type := string * Z.

(** What [s.sendto(text.encode(), address)] puts on the wire. *)
Definition datagram : Type := string * sender_info.

Record Member : Type := mkMember {
  name : string;
  port : Z;
  pending_messages : list string
}.

Global Instance Member_eq_dec : EqDecision Member.
Proof. solve_decision. Defined.

(** [Member.add_message] *)
Definition add_message (message : string) (m : Member) : Member :=
  mkMember (name m) (port m) (pending_messages m ++ [message]).

(** [Member.clear_message_board] *)
Definition clear_message_board (m : Member) : Member :=
  mkMember (name m) (port m) [].

(** [m.name = new_name] *)
Definition set_name (new_name : string) (m : Member) : Member :=
  mkMember new_name (port m) (pending_messages m).

(** ** Registry lookups

    [Member] defines neither [__eq__] nor [__ne__], so Python compares members
    by object identity.  Every [Member] object is created in [join_group] and
    appended to [chat_members] exactly once, so an object is identified by its
    position in the list: [find_member_by_info] returns that position together
    with the object's current content, and [None] when the loop falls through
    (Python's implicit [return None]). *)

Definition find_member_by_info (chat_members : list Member)
    (sender : sender_info) : option (nat * Member) :=
  list_find (λ m, sender.2 = port m) chat_members.

Fixpoint is_port_available (chat_members : list Member)
    (sender : sender_info) : bool :=
  match chat_members with
  | [] => true
  | m :: rest =>
      if decide (port m = sender.2) then false
      else is_port_available rest sender
  end.

(** ** Codec *)

(** [merge_str]: [substr.pop(0)] raises [IndexError] on an empty list; the
    loop then appends every remaining token followed by one space, and the
    last character is cut off.  (The in-place [pop] is not observable: no
    caller reads [substr] again after the call.) *)
Definition merge_str (substr : list string) : result string :=
  match substr with
  | [] => Raise IndexError
  | _ :: rest =>
      let new_str := fold_left (λ acc sub, acc +:+ (sub +:+ " ")) rest "" in
      Ok (PyStr.drop_last new_str)
  end.

(** ** Command handlers

    Each handler receives the member list and returns the list as the call
    leaves it, together with the datagrams it sent, in order. *)

(** The members of [chat_members] that are not the object [member]
    (position [i]); when [member] is [None] every object differs from it. *)
Definition other_than (member : option (nat * Member))
    (chat_members : list Member) : list Member :=
  match member with
  | None => chat_members
  | Some (i, _) => delete i chat_members
  end.

Definition display_other_members (sender : sender_info)
    (chat_members : list Member) : string :=
  let member := find_member_by_info chat_members sender in
  let name_list := name <$> other_than member chat_members in
  if decide (length chat_members = 1%nat) then ""
  else PyStr.join ", " name_list.

Definition join_group (substr : list string) (sender : sender_info)
    (chat_members : list Member) : result (list Member * list datagram) :=
  nm ← merge_str substr;
  let chat_members := add_message (nm +:+ " has joined") <$> chat_members in
  let member := mkMember nm sender.2 [] in
  let chat_members := chat_members ++ [member] in
  let other_members := display_other_members sender chat_members in
  Ok (chat_members, [(other_members, sender)]).

Definition refresh_messages (sender : sender_info)
    (chat_members : list Member) : result (list Member * list datagram) :=
  match find_member_by_info chat_members sender with
  | None => Raise AttributeError
  | Some (i, member) =>
      if decide (length (pending_messages member) = 0%nat) then
        Ok (chat_members, [("", sender)])
      else
        let final_msg :=
          fold_left (λ acc msg, acc +:+ (msg +:+ PyStr.newline))
                    (pending_messages member) "" in
        Ok (<[i := clear_message_board member]> chat_members,
            [(final_msg, sender)])
  end.

(** The loop bodies of [send_message] and [change_name]: what one pass of
    [for m in chat_members] does to the member [m]. *)
Definition send_notify (nm full_message : string) (m : Member) : Member :=
  if decide (name m ≠ nm) then add_message full_message m else m.

Definition rename_notify (sender : sender_info) (message new_name : string)
    (m : Member) : Member :=
  if decide (sender.2 ≠ port m) then add_message message m
  else set_name new_name m.

Definition send_message (substr : list string) (sender : sender_info)
    (chat_members : list Member) : result (list Member * list datagram) :=
  match find_member_by_info chat_members sender with
  | None => Raise AttributeError
  | Some (_, member) =>
      let nm := name member in
      message ← merge_str substr;
      let full_message := nm +:+ (": " +:+ message) in
      let chat_members := send_notify nm full_message <$> chat_members in
      refresh_messages sender chat_members
  end.

Definition change_name (substr : list string) (sender : sender_info)
    (chat_members : list Member) : result (list Member * list datagram) :=
  match find_member_by_info chat_members sender with
  | None => Raise AttributeError
  | Some (_, member) =>
      let old_name := name member in
      new_name ← merge_str substr;
      let message := old_name +:+ (" changed his name to " +:+ new_name) in
      let chat_members :=
        rename_notify sender message new_name <$> chat_members in
      refresh_messages sender chat_members
  end.

Definition leave_group (sender : sender_info)
    (chat_members : list Member) : result (list Member * list datagram) :=
  match find_member_by_info chat_members sender with
  | None => Raise AttributeError
  | Some (i, member) =>
      let nm := name member in
      let chat_members := delete i chat_members in
      let chat_members :=
        add_message (nm +:+ " has left the group") <$> chat_members in
      Ok (chat_members, [("", sender)])
  end.

Definition illegal_msg : string := "Illegal request".

Definition handle_message (message : string) (sender : sender_info)
    (chat_members : list Member) : result (list Member * list datagram) :=
  let substr := PyStr.split_space message in
  match substr with
  | [] => Raise IndexError
  | code :: _ =>
      if decide (code = "1") then
        if negb (is_port_available chat_members sender) then
          Ok (chat_members, [(illegal_msg, sender)])
        else join_group substr sender chat_members
      else if is_port_available chat_members sender then
        Ok (chat_members, [(illegal_msg, sender)])
      else if decide (code = "2") then send_message substr sender chat_members
      else if decide (code = "3") then change_name substr sender chat_members
      else if decide (code = "4") then leave_group sender chat_members
      else if decide (code = "5") then refresh_messages sender chat_members
      else Ok (chat_members, [(illegal_msg, sender)])
  end.

(** The main loop: one datagram is received and handled to completion before
    the next one; an exception escaping [handle_message] ends the process.
    [inputs] are the datagrams as [message.decode()] returns them, and every
    [s.sendto] is recorded as a datagram sent: the two library calls are
    taken to return.  A datagram that does not decode, or a reply too large
    for the transport, ends the real process before or inside the call; such
    runs are outside [serve]. *)
Fixpoint serve (inputs : list (string * sender_info))
    (chat_members : list Member) : result (list Member * list datagram) :=
  match inputs with
  | [] => Ok (chat_members, [])
  | (message, sender) :: rest =>
      '(chat_members, sent) ← handle_message message sender chat_members;
      '(chat_members, sent') ← serve rest chat_members;
      Ok (chat_members, sent ++ sent')
  end.

(** ** Vocabulary of the specification *)

(** The command code of a raw message: its first token. *)
Definition command_code (message : string) : option string :=
  head (PyStr.split_space message).

(** A sender is registered when its port is taken. *)
Definition registered (chat_members : list Member) (sender : sender_info) : Prop :=
  is_port_available chat_members sender = false.

(** The wire format of a mailbox flush as the specification words it: the
    queued strings joined by a newline, with one more newline after the last
    entry; the empty string when nothing is queued. *)
Definition drain_format (pending : list string) : string :=
  match pending with
  | [] => ""
  | _ => PyStr.join PyStr.newline pending +:+ PyStr.newline
  end.

(** The three situations in which the specification expects the error
    response: (a) a Join from a registered port, (b) anything but a Join from
    an unregistered port, (c) a code outside "1".."5" from a registered port. *)
Definition illegal_condition (message : string) (sender : sender_info)
    (chat_members : list Member) : Prop :=
  (command_code message = Some "1" ∧ registered chat_members sender) ∨
  (command_code message ≠ Some "1" ∧ ¬ registered chat_members sender) ∨
  (registered chat_members sender ∧
   ∀ code, command_code message = Some code →
           code ∉ ["1"; "2"; "3"; "4"; "5"]).

(** * Properties *)

(** ** Strings *)

Section string_facts.
Implicit Types (s t u : string) (c : ascii) (l : list string).

Lemma str_app_cons c s t : String c s +:+ t = String c (s +:+ t).
Proof. reflexivity. Qed.

Lemma str_app_empty_l s : "" +:+ s = s.
Proof. reflexivity. Qed.

Lemma str_app_empty_r s : s +:+ "" = s.
Proof. induction s as [|c s IH]; [done|]. by rewrite str_app_cons, IH. Qed.

Lemma str_app_assoc s t u : (s +:+ t) +:+ u = s +:+ (t +:+ u).
Proof. induction s as [|c s IH]; [done|]. by rewrite !str_app_cons, IH. Qed.

Lemma drop_last_snoc s c : PyStr.drop_last (s +:+ String c "") = s.
Proof.
  induction s as [|d s IH]; [done|].
  rewrite str_app_cons. simpl. rewrite IH.
  destruct s; by rewrite ?str_app_cons.
Qed.

(** The accumulating loops of [merge_str] and [refresh_messages]. *)
Lemma fold_left_suffixed (sep : string) l acc :
  fold_left (λ a x, a +:+ (x +:+ sep)) l acc =
  acc +:+ fold_right (λ x r, x +:+ (sep +:+ r)) "" l.
Proof.
  revert acc. induction l as [|x l IH]; intros acc; simpl.
  - by rewrite str_app_empty_r.
  - by rewrite IH, !str_app_assoc.
Qed.

Lemma suffixed_join (sep : string) x l :
  fold_right (λ x r, x +:+ (sep +:+ r)) "" (x :: l) =
  PyStr.join sep (x :: l) +:+ sep.
Proof.
  unfold PyStr.join. revert x. induction l as [|y l IH]; intros x.
  - simpl. by rewrite str_app_empty_r.
  - change (x +:+ (sep +:+ fold_right (λ x r, x +:+ (sep +:+ r)) "" (y :: l))
            = (x +:+ (sep +:+ String.concat sep (y :: l))) +:+ sep).
    by rewrite IH, !str_app_assoc.
Qed.

Lemma split_space_nonempty s : PyStr.split_space s ≠ [].
Proof.
  destruct s as [|c s]; simpl; [done|].
  case_decide; [done|]. by destruct (PyStr.split_space s).
Qed.

Lemma join_split_space s : PyStr.join " " (PyStr.split_space s) = s.
Proof.
  unfold PyStr.join. induction s as [|c s IH]; [done|]. simpl.
  case_decide as Hc.
  - subst c. pose proof (split_space_nonempty s).
    destruct (PyStr.split_space s) as [|tok toks] eqn:E; [done|].
    change (String.concat " " ("" :: tok :: toks))
      with (" " +:+ String.concat " " (tok :: toks)).
    by rewrite IH.
  - pose proof (split_space_nonempty s).
    destruct (PyStr.split_space s) as [|tok toks] eqn:E; [done|].
    destruct toks as [|tok' toks]; simpl in *; by rewrite <- IH.
Qed.

Lemma split_space_code s t :
  PyStr.no_space s →
  PyStr.split_space (s +:+ (" " +:+ t)) = s :: PyStr.split_space t.
Proof.
  induction s as [|c s IH]; intros Hs.
  - change ("" +:+ (" " +:+ t)) with (String " " t). simpl. done.
  - destruct Hs as [Hc Hs]. rewrite str_app_cons. simpl.
    rewrite decide_False by done. by rewrite IH.
Qed.

Lemma merge_str_cons tok l : merge_str (tok :: l) = Ok (PyStr.join " " l).
Proof.
  unfold merge_str. f_equal. rewrite fold_left_suffixed, str_app_empty_l.
  destruct l as [|x l]; [done|].
  rewrite suffixed_join. apply drop_last_snoc.
Qed.

End string_facts.

(** ** Registry lookups *)

Section registry_facts.
Implicit Types (cm : list Member) (sender : sender_info) (m : Member).

Lemma member_eta m : mkMember (name m) (port m) (pending_messages m) = m.
Proof. by destruct m. Qed.

Lemma available_iff_absent cm sender :
  is_port_available cm sender = true ↔ sender.2 ∉ port <$> cm.
Proof.
  induction cm as [|m cm IH]; csimpl.
  - split; [intros _; apply not_elem_of_nil | done].
  - rewrite not_elem_of_cons. case_decide as Hp; [naive_solver|].
    rewrite IH. naive_solver.
Qed.

Lemma available_find_None cm sender :
  is_port_available cm sender = true ↔ find_member_by_info cm sender = None.
Proof.
  unfold find_member_by_info. rewrite list_find_None, available_iff_absent.
  rewrite Forall_forall, list_elem_of_fmap. naive_solver.
Qed.

Lemma registered_find cm sender :
  registered cm sender ↔ ∃ i m, find_member_by_info cm sender = Some (i, m).
Proof.
  unfold registered. rewrite <- not_true_iff_false, available_find_None.
  destruct (find_member_by_info cm sender) as [[i m]|]; naive_solver.
Qed.

Lemma find_lookup cm sender i m :
  find_member_by_info cm sender = Some (i, m) →
  cm !! i = Some m ∧ port m = sender.2.
Proof. intros (? & ? & _)%list_find_Some. done. Qed.

(** A pass over the list that keeps every port keeps every lookup. *)
Lemma find_fmap (f : Member → Member) cm sender :
  (∀ m, port (f m) = port m) →
  find_member_by_info (f <$> cm) sender =
  prod_map id f <$> find_member_by_info cm sender.
Proof.
  intros Hf. unfold find_member_by_info. rewrite list_find_fmap.
  f_equal. apply list_find_ext. intros m. simpl. by rewrite Hf.
Qed.

Lemma available_fmap (f : Member → Member) cm sender :
  (∀ m, port (f m) = port m) →
  is_port_available (f <$> cm) sender = is_port_available cm sender.
Proof.
  intros Hf. induction cm as [|m cm IH]; csimpl; [done|].
  by rewrite Hf, IH.
Qed.

Lemma ports_fmap (f : Member → Member) cm :
  (∀ m, port (f m) = port m) → port <$> (f <$> cm) = port <$> cm.
Proof.
  intros Hf. rewrite <- list_fmap_compose. apply list_fmap_ext.
  intros ? m _. apply Hf.
Qed.

Lemma ports_insert cm i m m' :
  cm !! i = Some m → port m' = port m →
  port <$> <[i := m']> cm = port <$> cm.
Proof.
  intros Hi Hp. rewrite list_fmap_insert, Hp.
  apply list_insert_id. by rewrite list_lookup_fmap, Hi.
Qed.

Lemma find_insert_same_port cm sender i m m' :
  find_member_by_info cm sender = Some (i, m) → port m' = port m →
  find_member_by_info (<[i := m']> cm) sender = Some (i, m').
Proof.
  unfold find_member_by_info. intros (Hi & Hp & Hlt)%list_find_Some Hm'.
  apply list_find_Some. split_and!.
  - apply list_lookup_insert_eq. by eapply lookup_lt_Some.
  - simpl. congruence.
  - intros j y Hj Hlt'. rewrite list_lookup_insert_ne in Hj by lia. eauto.
Qed.

Lemma port_send_notify nm msg m : port (send_notify nm msg m) = port m.
Proof. unfold send_notify. by case_decide. Qed.

Lemma port_rename_notify sender msg new m :
  port (rename_notify sender msg new m) = port m.
Proof. unfold rename_notify. by case_decide. Qed.

(** With unique ports, removing the member found for a port frees it. *)
Lemma available_after_delete cm sender i m :
  NoDup (port <$> cm) →
  find_member_by_info cm sender = Some (i, m) →
  is_port_available (delete i cm) sender = true.
Proof.
  intros Hnd [Hi Hp]%find_lookup. apply available_iff_absent.
  rewrite list_fmap_delete. intros [j Hj]%list_elem_of_lookup.
  assert ((port <$> cm) !! i = Some sender.2) as Hi'.
  { by rewrite list_lookup_fmap, Hi, <- Hp. }
  destruct (decide (j < i)%nat).
  - rewrite list_lookup_delete_lt in Hj by done.
    pose proof (NoDup_lookup _ _ _ _ Hnd Hj Hi'). lia.
  - rewrite list_lookup_delete_ge in Hj by lia.
    pose proof (NoDup_lookup _ _ _ _ Hnd Hj Hi'). lia.
Qed.

End registry_facts.

(** ** What each handler computes *)

Section handler_facts.
Implicit Types (cm : list Member) (sender : sender_info) (m : Member).

Lemma drain_loop pending :
  fold_left (λ acc msg, acc +:+ (msg +:+ PyStr.newline)) pending "" =
  drain_format pending.
Proof.
  rewrite fold_left_suffixed, str_app_empty_l.
  destruct pending as [|x l]; [done|]. apply suffixed_join.
Qed.

Lemma refresh_messages_found cm sender i m :
  find_member_by_info cm sender = Some (i, m) →
  refresh_messages sender cm =
  Ok (<[i := clear_message_board m]> cm,
      [(drain_format (pending_messages m), sender)]).
Proof.
  intros Hfind. unfold refresh_messages. rewrite Hfind.
  apply find_lookup in Hfind as [Hi _].
  case_decide as Hlen.
  - apply nil_length_inv in Hlen. rewrite Hlen. simpl.
    rewrite list_insert_id; [done|].
    rewrite Hi. f_equal. unfold clear_message_board.
    rewrite <- Hlen. symmetry. apply member_eta.
  - by rewrite drain_loop.
Qed.

Lemma send_message_found cm sender i m code payload :
  find_member_by_info cm sender = Some (i, m) →
  send_message (code :: payload) sender cm =
  Ok (<[i := clear_message_board m]>
        (send_notify (name m)
           (name m +:+ (": " +:+ PyStr.join " " payload)) <$> cm),
      [(drain_format (pending_messages m), sender)]).
Proof.
  intros Hfind. unfold send_message. rewrite Hfind, merge_str_cons. simpl.
  erewrite refresh_messages_found.
  2:{ rewrite find_fmap by apply port_send_notify. by rewrite Hfind. }
  unfold send_notify at 1 3. by rewrite decide_False by (by intros []).
Qed.

Lemma change_name_found cm sender i m code payload :
  find_member_by_info cm sender = Some (i, m) →
  let new_name := PyStr.join " " payload in
  change_name (code :: payload) sender cm =
  Ok (<[i := mkMember new_name (port m) []]>
        (rename_notify sender
           (name m +:+ (" changed his name to " +:+ new_name)) new_name
           <$> cm),
      [(drain_format (pending_messages m), sender)]).
Proof.
  intros Hfind new_name. unfold change_name.
  rewrite Hfind, merge_str_cons. simpl.
  erewrite refresh_messages_found.
  2:{ rewrite find_fmap by apply port_rename_notify. by rewrite Hfind. }
  apply find_lookup in Hfind as [_ Hp].
  unfold rename_notify at 1 3. by rewrite decide_False by (by intros []).
Qed.

Lemma leave_group_found cm sender i m :
  find_member_by_info cm sender = Some (i, m) →
  leave_group sender cm =
  Ok (add_message (name m +:+ " has left the group") <$> delete i cm,
      [("", sender)]).
Proof. intros Hfind. unfold leave_group. by rewrite Hfind. Qed.

End handler_facts.

Section dispatch_facts.
Implicit Types (cm : list Member) (sender : sender_info) (m : Member).

Lemma display_after_join cm sender nm :
  is_port_available cm sender = true →
  display_other_members sender (cm ++ [mkMember nm sender.2 []]) =
  PyStr.join ", " (name <$> cm).
Proof.
  intros Hav%available_find_None. unfold display_other_members.
  case_decide as Hlen.
  - rewrite length_app in Hlen. simpl in Hlen.
    destruct cm; simpl in Hlen; [done|lia].
  - unfold find_member_by_info in *.
    rewrite list_find_app_r by done. simpl.
    rewrite decide_True by done. simpl.
    by rewrite (delete_middle cm []), app_nil_r.
Qed.

Lemma join_group_available cm sender code payload :
  is_port_available cm sender = true →
  let nm := PyStr.join " " payload in
  join_group (code :: payload) sender cm =
  Ok ((add_message (nm +:+ " has joined") <$> cm)
        ++ [mkMember nm sender.2 []],
      [(PyStr.join ", " (name <$> cm), sender)]).
Proof.
  intros Hav nm. unfold join_group. rewrite merge_str_cons. simpl.
  rewrite display_after_join by (by rewrite available_fmap).
  by rewrite <- list_fmap_compose.
Qed.

(** The dispatcher after decoding: the same cascade with the tokens named. *)
Lemma handle_message_tokens message sender cm code payload :
  PyStr.split_space message = code :: payload →
  handle_message message sender cm =
  if decide (code = "1") then
    if negb (is_port_available cm sender) then
      Ok (cm, [(illegal_msg, sender)])
    else join_group (code :: payload) sender cm
  else if is_port_available cm sender then
    Ok (cm, [(illegal_msg, sender)])
  else if decide (code = "2") then send_message (code :: payload) sender cm
  else if decide (code = "3") then change_name (code :: payload) sender cm
  else if decide (code = "4") then leave_group sender cm
  else if decide (code = "5") then refresh_messages sender cm
  else Ok (cm, [(illegal_msg, sender)]).
Proof. intros Hsplit. unfold handle_message. by rewrite Hsplit. Qed.

Lemma command_code_tokens message code :
  command_code message = Some code ↔
  ∃ payload, PyStr.split_space message = code :: payload.
Proof.
  unfold command_code.
  destruct (PyStr.split_space message) as [|c l]; simpl; naive_solver.
Qed.

Lemma command_code_total message : ∃ code, command_code message = Some code.
Proof.
  unfold command_code. pose proof (split_space_nonempty message).
  destruct (PyStr.split_space message); [done|]. eauto.
Qed.

(** Every request is answered with exactly one datagram, addressed to its
    sender, and unique ports stay unique. *)
Lemma handle_message_step message sender cm :
  ∃ cm' text,
    handle_message message sender cm = Ok (cm', [(text, sender)]) ∧
    (NoDup (port <$> cm) → NoDup (port <$> cm')).
Proof.
  destruct (command_code_total message) as [code Hcode].
  apply command_code_tokens in Hcode as [payload Hsplit].
  rewrite (handle_message_tokens _ _ _ _ _ Hsplit).
  destruct (is_port_available cm sender) eqn:Hav; simpl.
  - case_decide; [|by eauto].
    rewrite join_group_available by done. do 2 eexists. split; [done|].
    intros Hnd. rewrite fmap_app, ports_fmap by done. simpl.
    apply NoDup_app. split_and!; [done| |apply NoDup_singleton].
    intros p Hp ->%list_elem_of_singleton.
    by apply available_iff_absent in Hav.
  - case_decide; [by eauto|].
    apply registered_find in Hav as (i & m & Hfind).
    pose proof (find_lookup _ _ _ _ Hfind) as [Hi Hp].
    repeat case_decide.
    + rewrite (send_message_found _ _ _ _ _ _ Hfind).
      do 2 eexists. split; [done|]. intros Hnd.
      erewrite ports_insert; [by rewrite ports_fmap by apply port_send_notify | |].
      * by rewrite list_lookup_fmap, Hi.
      * by rewrite port_send_notify.
    + rewrite (change_name_found _ _ _ _ _ _ Hfind).
      do 2 eexists. split; [done|]. intros Hnd.
      erewrite ports_insert;
        [by rewrite ports_fmap by apply port_rename_notify | |].
      * by rewrite list_lookup_fmap, Hi.
      * by rewrite port_rename_notify.
    + rewrite (leave_group_found _ _ _ _ Hfind).
      do 2 eexists. split; [done|]. intros Hnd.
      rewrite ports_fmap by done. rewrite list_fmap_delete.
      eapply sublist_NoDup; [done|apply sublist_delete].
    + rewrite (refresh_messages_found _ _ _ _ Hfind).
      do 2 eexists. split; [done|]. intros Hnd.
      by erewrite ports_insert.
    + by eauto.
Qed.

(** On decoded requests [serve] never raises, records one datagram per
    request, and keeps ports unique. *)
Lemma serve_step inputs cm :
  ∃ cm' sent,
    serve inputs cm = Ok (cm', sent) ∧
    length sent = length inputs ∧
    (NoDup (port <$> cm) → NoDup (port <$> cm')).
Proof.
  revert cm. induction inputs as [|[message sender] inputs IH]; intros cm.
  - simpl. by eauto.
  - destruct (handle_message_step message sender cm)
      as (cm1 & text & Hstep & Hnd1).
    destruct (IH cm1) as (cm2 & sent & Hrest & Hlen & Hnd2).
    simpl. rewrite Hstep. simpl. rewrite Hrest. simpl.
    do 2 eexists. split_and!; [done|simpl; by rewrite Hlen|auto].
Qed.

End dispatch_facts.

(** ** A session, run

    Alice and Bob join, Alice sends, Bob renames himself and sends, Alice
    leaves without polling, Bob polls. *)
Example session_run :
  let alice := ("10.0.0.1", 5001) in
  let bob := ("10.0.0.2", 5002) in
  serve [("1 Alice", alice); ("1 Bob", bob); ("2 hello there", alice);
         ("3 Bobby", bob); ("2 hi", bob); ("4", alice); ("5", bob)] [] =
  Ok ([mkMember "Bobby" 5002 []],
      [("", alice); ("Alice", bob);
       ("Bob has joined" +:+ PyStr.newline, alice);
       ("Alice: hello there" +:+ PyStr.newline, bob);
       ("", bob); ("", alice);
       ("Alice has left the group" +:+ PyStr.newline, bob)]).
Proof. vm_compute. reflexivity. Qed.

(** ** Registry uniqueness *)

(** C1. Registry uniqueness: whatever datagrams the server has handled since
    it started with the empty registry, it is still running and no two
    members at different positions of [chat_members] have the same port; and
    in any state a Join (first token "1") from a port that is already
    registered is answered with "Illegal request" and changes nothing. *)
Theorem registry_uniqueness :
  (∀ inputs, ∃ cm sent,
      serve inputs [] = Ok (cm, sent) ∧
      ∀ i j mi mj, cm !! i = Some mi → cm !! j = Some mj →
                   port mi = port mj → i = j) ∧
  (∀ message sender cm,
      command_code message = Some "1" → registered cm sender →
      handle_message message sender cm = Ok (cm, [(illegal_msg, sender)])).
Proof.
  split.
  - intros inputs.
    destruct (serve_step inputs []) as (cm & sent & Hrun & _ & Hnd).
    exists cm, sent. split; [done|]. intros i j mi mj Hi Hj Hport.
    eapply (NoDup_lookup (port <$> cm) i j (port mi)).
    + apply Hnd. constructor.
    + by rewrite list_lookup_fmap, Hi.
    + by rewrite list_lookup_fmap, Hj, Hport.
  - intros message sender cm [payload Hsplit]%command_code_tokens Hreg.
    rewrite (handle_message_tokens _ _ _ _ _ Hsplit).
    rewrite decide_True by done. unfold registered in Hreg. by rewrite Hreg.
Qed.

Lemma registry_uniqueness_witness :
  let cm := [mkMember "Alice" 5001 []] in
  command_code "1 Mallory" = Some "1" ∧
  registered cm ("10.0.0.7", 5001) ∧
  handle_message "1 Mallory" ("10.0.0.7", 5001) cm =
    Ok (cm, [(illegal_msg, ("10.0.0.7", 5001))]).
Proof.
  split; [reflexivity|]. split; [reflexivity|].
  apply (proj2 registry_uniqueness); reflexivity.
Defined.

(** ** Mailbox drain *)

(** C3. Mailbox drain is exactly-once with fixed formatting: when a
    registered sender issues Send, Rename or Poll, the response is the
    sender's queue as it stood before the command, every entry once and in
    queue order, joined by newlines with one trailing newline (the empty
    string for an empty queue); afterwards the sender's queue is empty, so a
    Poll right after returns the empty string; a Poll changes nothing else. *)
Theorem mailbox_drain_exactly_once message sender cm i m code :
  find_member_by_info cm sender = Some (i, m) →
  command_code message = Some code →
  code ∈ ["2"; "3"; "5"] →
  ∃ cm' m',
    handle_message message sender cm =
      Ok (cm', [(drain_format (pending_messages m), sender)]) ∧
    find_member_by_info cm' sender = Some (i, m') ∧
    pending_messages m' = [] ∧
    handle_message "5" sender cm' = Ok (cm', [("", sender)]) ∧
    (code = "5" → cm' = <[i := clear_message_board m]> cm).
Proof.
  intros Hfind [payload Hsplit]%command_code_tokens Hcode.
  rewrite (handle_message_tokens _ _ _ _ _ Hsplit).
  assert (is_port_available cm sender = false) as Hreg.
  { apply registered_find. eauto. }
  rewrite Hreg.
  assert (∀ cm1 m1, find_member_by_info cm1 sender = Some (i, m1) →
            pending_messages m1 = [] →
            handle_message "5" sender cm1 = Ok (cm1, [("", sender)])) as Hpoll.
  { intros cm1 m1 Hf1 Hempty.
    rewrite (handle_message_tokens "5" sender cm1 "5" []) by done.
    assert (is_port_available cm1 sender = false) as ->.
    { apply registered_find. eauto. }
    simpl. rewrite (refresh_messages_found _ _ _ _ Hf1), Hempty. simpl.
    rewrite list_insert_id; [done|].
    apply find_lookup in Hf1 as [-> _]. f_equal.
    unfold clear_message_board. rewrite <- Hempty. symmetry. apply member_eta. }
  pose proof (find_lookup _ _ _ _ Hfind) as [Hi Hp].
  rewrite !elem_of_cons, elem_of_nil in Hcode.
  destruct Hcode as [->|[->|[->|[]]]]; simpl.
  - rewrite (send_message_found _ _ _ _ _ _ Hfind).
    eexists _, (clear_message_board m). split; [done|].
    assert (find_member_by_info
              (<[i:=clear_message_board m]>
                 (send_notify (name m)
                    (name m +:+ (": " +:+ PyStr.join " " payload)) <$> cm))
              sender = Some (i, clear_message_board m)) as Hf'.
    { eapply find_insert_same_port.
      - rewrite find_fmap by apply port_send_notify. by rewrite Hfind.
      - simpl. by rewrite port_send_notify. }
    split_and!; [done|done|by eapply Hpoll|done].
  - rewrite (change_name_found _ _ _ _ _ _ Hfind).
    eexists _, (mkMember (PyStr.join " " payload) (port m) []).
    split; [done|].
    assert (find_member_by_info
              (<[i:=mkMember (PyStr.join " " payload) (port m) []]>
                 (rename_notify sender
                    (name m +:+ (" changed his name to "
                                 +:+ PyStr.join " " payload))
                    (PyStr.join " " payload) <$> cm))
              sender = Some (i, mkMember (PyStr.join " " payload) (port m) []))
      as Hf'.
    { eapply find_insert_same_port.
      - rewrite find_fmap by apply port_rename_notify. by rewrite Hfind.
      - simpl. by rewrite port_rename_notify. }
    split_and!; [done|done|by eapply Hpoll|done].
  - rewrite (refresh_messages_found _ _ _ _ Hfind).
    eexists _, (clear_message_board m). split; [done|].
    assert (find_member_by_info (<[i:=clear_message_board m]> cm) sender
            = Some (i, clear_message_board m)) as Hf'.
    { by eapply find_insert_same_port. }
    split_and!; [done|done|by eapply Hpoll|done].
Qed.

Lemma mailbox_drain_exactly_once_witness :
  let bob := ("10.0.0.2", 5002) in
  let cm := [mkMember "Alice" 5001 [];
             mkMember "Bob" 5002 ["Alice: hello"; "Alice: bye"]] in
  find_member_by_info cm bob =
    Some (1%nat, mkMember "Bob" 5002 ["Alice: hello"; "Alice: bye"]) ∧
  command_code "5" = Some "5" ∧
  "5" ∈ ["2"; "3"; "5"] ∧
  ∃ cm' m',
    handle_message "5" bob cm =
      Ok (cm', [(drain_format ["Alice: hello"; "Alice: bye"], bob)]) ∧
    find_member_by_info cm' bob = Some (1%nat, m') ∧
    pending_messages m' = [] ∧
    handle_message "5" bob cm' = Ok (cm', [("", bob)]) ∧
    ("5" = "5" → cm' = <[1%nat := clear_message_board
                           (mkMember "Bob" 5002 ["Alice: hello"; "Alice: bye"])]> cm).
Proof.
  intros bob cm.
  split; [reflexivity|]. split; [reflexivity|].
  split; [rewrite !elem_of_cons; auto|].
  apply (mailbox_drain_exactly_once "5" bob cm 1
           (mkMember "Bob" 5002 ["Alice: hello"; "Alice: bye"]) "5");
    [reflexivity|reflexivity|rewrite !elem_of_cons; auto].
Defined.


(** ** Codec *)

(** C6. Codec merge round-trip: on every token list that has a first token,
    [merge_str] drops it and returns the remaining tokens joined by single
    spaces (the empty string when none remain); the empty list, which
    decoding never produces, makes [pop(0)] raise.  Hence for every command
    code [c] (any text without a space) and every payload [p], splitting the
    raw line "c p" on single spaces and merging gives back [p] exactly. *)
Theorem merge_round_trip :
  (∀ tokens,
      merge_str tokens =
      match tokens with
      | [] => Raise IndexError
      | _ :: payload => Ok (PyStr.join " " payload)
      end) ∧
  (∀ c p,
      PyStr.no_space c →
      merge_str (PyStr.split_space (c +:+ (" " +:+ p))) = Ok p).
Proof.
  split.
  - intros [|tok payload]; [done|]. apply merge_str_cons.
  - intros c p Hc. rewrite split_space_code by done.
    by rewrite merge_str_cons, join_split_space.
Qed.

Lemma merge_round_trip_witness :
  PyStr.no_space "2" ∧
  merge_str (PyStr.split_space ("2" +:+ (" " +:+ "see  you at 5 "))) =
    Ok "see  you at 5 ".
Proof.
  split; [by split|].
  apply (proj2 merge_round_trip). by split.
Defined.

(** C10. A Join whose raw message is the single token "1" is accepted from
    an unregistered port: the new member's name is the empty string, every
    member that was already there gets " has joined" appended to its queue,
    and the response is the list of their names. *)
Theorem join_without_payload sender cm :
  is_port_available cm sender = true →
  handle_message "1" sender cm =
  Ok ((add_message " has joined" <$> cm) ++ [mkMember "" sender.2 []],
      [(PyStr.join ", " (name <$> cm), sender)]).
Proof.
  intros Hav. rewrite (handle_message_tokens "1" sender cm "1" []) by done.
  rewrite decide_True by done. rewrite Hav. simpl.
  by rewrite join_group_available.
Qed.

Lemma join_without_payload_witness :
  let cm := [mkMember "Alice" 5001 ["x"]] in
  is_port_available cm ("10.0.0.2", 5002) = true ∧
  handle_message "1" ("10.0.0.2", 5002) cm =
  Ok ([mkMember "Alice" 5001 ["x"; " has joined"]; mkMember "" 5002 []],
      [("Alice", ("10.0.0.2", 5002))]).
Proof.
  split; [reflexivity|].
  apply (join_without_payload ("10.0.0.2", 5002)
           [mkMember "Alice" 5001 ["x"]]).
  reflexivity.
Defined.

(** ** Zero tokens *)

(** C9 as stated fails: no raw input decodes to an empty token list. *)
Lemma no_zero_token_input : ¬ ∃ raw, PyStr.split_space raw = [].
Proof. intros [raw Hraw]. by apply (split_space_nonempty raw). Qed.

(** C9, amended. Splitting on single spaces always yields at least one
    token, so the zero-token case that [substr[0]] leaves unguarded never
    arises from any raw input; the empty input decodes to the single empty
    token and is answered with "Illegal request" without changing the
    state. *)
Theorem zero_tokens_unreachable message sender cm :
  PyStr.split_space message ≠ [] ∧
  PyStr.split_space "" = [""] ∧
  handle_message "" sender cm = Ok (cm, [(illegal_msg, sender)]).
Proof.
  split_and!.
  - apply split_space_nonempty.
  - done.
  - rewrite (handle_message_tokens "" sender cm "" []) by done.
    rewrite decide_False by done.
    destruct (is_port_available cm sender); [done|].
    by rewrite !decide_False by done.
Qed.


(** ** Scenarios *)

(** C8 as stated fails: the Poll of scenario 1 is not answered with the bare
    text "Bob has joined"; [refresh_messages] ends every line, the last one
    too, with a newline. *)
Lemma scenario_1_poll_not_bare :
  ¬ ∃ cm,
      serve [("1 Alice", ("10.0.0.1", 5001)); ("1 Bob", ("10.0.0.2", 5002));
             ("5", ("10.0.0.1", 5001))] [] =
      Ok (cm, [("", ("10.0.0.1", 5001)); ("Alice", ("10.0.0.2", 5002));
               ("Bob has joined", ("10.0.0.1", 5001))]).
Proof. intros [cm Hrun]. vm_compute in Hrun. discriminate Hrun. Qed.

(** C8, amended. Scenario 1 for distinct ports [P1] and [P2]: Join "Alice"
    from [P1] is answered with the empty string, Join "Bob" from [P2] with
    "Alice", and the following Poll from [P1] with "Bob has joined" followed
    by a newline, after which both queues are empty. *)
Theorem scenario_1_responses ip1 P1 ip2 P2 :
  P1 ≠ P2 →
  serve [("1 Alice", (ip1, P1)); ("1 Bob", (ip2, P2)); ("5", (ip1, P1))] [] =
  Ok ([mkMember "Alice" P1 []; mkMember "Bob" P2 []],
      [("", (ip1, P1)); ("Alice", (ip2, P2));
       ("Bob has joined" +:+ PyStr.newline, (ip1, P1))]).
Proof.
  intros Hne. unfold serve.
  assert (handle_message "1 Alice" (ip1, P1) [] =
          Ok ([mkMember "Alice" P1 []], [("", (ip1, P1))])) as -> by done.
  simpl.
  assert (handle_message "1 Bob" (ip2, P2) [mkMember "Alice" P1 []] =
          Ok ([mkMember "Alice" P1 ["Bob has joined"]; mkMember "Bob" P2 []],
              [("Alice", (ip2, P2))])) as ->.
  { rewrite (handle_message_tokens _ _ _ "1" ["Bob"]) by done.
    assert (is_port_available [mkMember "Alice" P1 []] (ip2, P2) = true) as Hav.
    { simpl. by rewrite decide_False. }
    rewrite decide_True, Hav by done. simpl.
    by rewrite join_group_available. }
  simpl.
  assert (handle_message "5" (ip1, P1)
            [mkMember "Alice" P1 ["Bob has joined"]; mkMember "Bob" P2 []] =
          Ok ([mkMember "Alice" P1 []; mkMember "Bob" P2 []],
              [("Bob has joined" +:+ PyStr.newline, (ip1, P1))])) as ->.
  { rewrite (handle_message_tokens _ _ _ "5" []) by done.
    assert (find_member_by_info
              [mkMember "Alice" P1 ["Bob has joined"]; mkMember "Bob" P2 []]
              (ip1, P1) = Some (0%nat, mkMember "Alice" P1 ["Bob has joined"]))
      as Hfind.
    { unfold find_member_by_info. simpl. by rewrite decide_True. }
    assert (is_port_available
              [mkMember "Alice" P1 ["Bob has joined"]; mkMember "Bob" P2 []]
              (ip1, P1) = false) as ->.
    { simpl. by rewrite decide_True. }
    simpl. by rewrite (refresh_messages_found _ _ _ _ Hfind). }
  done.
Qed.

Lemma scenario_1_responses_witness :
  (5001 ≠ 5002) ∧
  serve [("1 Alice", ("10.0.0.1", 5001)); ("1 Bob", ("10.0.0.2", 5002));
         ("5", ("10.0.0.1", 5001))] [] =
  Ok ([mkMember "Alice" 5001 []; mkMember "Bob" 5002 []],
      [("", ("10.0.0.1", 5001)); ("Alice", ("10.0.0.2", 5002));
       ("Bob has joined" +:+ PyStr.newline, ("10.0.0.1", 5001))]).
Proof.
  split; [lia|].
  apply (scenario_1_responses "10.0.0.1" 5001 "10.0.0.2" 5002). lia.
Defined.

(** ** Notification targets *)

(** X8. What a Send does to the queue of another member object: it gains
    the line "<sender name>: <text>" unless its name equals the sender's, in
    which case it is left as it was. *)
Lemma send_message_targets cm sender i m code payload j mj :
  find_member_by_info cm sender = Some (i, m) →
  cm !! j = Some mj → j ≠ i →
  ∃ cm' sent,
    send_message (code :: payload) sender cm = Ok (cm', sent) ∧
    cm' !! j =
      Some (if decide (name mj ≠ name m)
            then add_message (name m +:+ (": " +:+ PyStr.join " " payload)) mj
            else mj).
Proof.
  intros Hfind Hj Hne. rewrite (send_message_found _ _ _ _ _ _ Hfind).
  do 2 eexists. split; [done|].
  rewrite list_lookup_insert_ne by done.
  by rewrite list_lookup_fmap, Hj.
Qed.

(** X9. What a Rename does to the queue of another member object, ports
    being unique: it always gains the line "<old> changed his name to <new>",
    whatever its name, and keeps its own name. *)
Lemma change_name_targets cm sender i m code payload j mj :
  NoDup (port <$> cm) →
  find_member_by_info cm sender = Some (i, m) →
  cm !! j = Some mj → j ≠ i →
  ∃ cm' sent,
    change_name (code :: payload) sender cm = Ok (cm', sent) ∧
    cm' !! j =
      Some (add_message
              (name m +:+ (" changed his name to " +:+ PyStr.join " " payload))
              mj).
Proof.
  intros Hnd Hfind Hj Hne. rewrite (change_name_found _ _ _ _ _ _ Hfind).
  do 2 eexists. split; [done|].
  rewrite list_lookup_insert_ne by done.
  rewrite list_lookup_fmap, Hj. simpl. f_equal.
  unfold rename_notify. rewrite decide_True; [done|].
  apply find_lookup in Hfind as [Hi Hp]. intros Hport. apply Hne.
  eapply (NoDup_lookup (port <$> cm) j i (port mj)); [done| |].
  - by rewrite list_lookup_fmap, Hj.
  - rewrite list_lookup_fmap, Hi. simpl. congruence.
Qed.

(** C2 fails on the code for Send: [send_message] skips every member whose
    name equals the sender's name, not just the sender.  Two members called
    "Alice" on ports 5001 and 5002; the first sends "hi"; the queue of the
    second stays empty instead of gaining "Alice: hi". *)
Theorem send_skips_namesake :
  serve [("1 Alice", ("10.0.0.1", 5001)); ("1 Alice", ("10.0.0.2", 5002));
         ("2 hi", ("10.0.0.1", 5001))] [] =
  Ok ([mkMember "Alice" 5001 []; mkMember "Alice" 5002 []],
      [("", ("10.0.0.1", 5001)); ("Alice", ("10.0.0.2", 5002));
       ("Alice has joined" +:+ PyStr.newline, ("10.0.0.1", 5001))]).
Proof. vm_compute. reflexivity. Qed.

(** ** Leave *)

Lemma filter_all_other (l : list Z) (x : Z) :
  x ∉ l → filter (λ y, y ≠ x) l = l.
Proof.
  induction l as [|y l IH]; [done|].
  intros [Hy Hl]%not_elem_of_cons.
  rewrite filter_cons_True by done. by rewrite IH.
Qed.

Lemma delete_unique (l : list Z) (i : nat) (x : Z) :
  NoDup l → l !! i = Some x → delete i l = filter (λ y, y ≠ x) l.
Proof.
  intros Hnd. revert i.
  induction Hnd as [|y l Hy Hnd IH]; intros [|i] Hi; simplify_eq/=.
  - rewrite filter_cons_False by (by intros ?).
    by rewrite filter_all_other.
  - rewrite filter_cons_True.
    + by rewrite (IH i Hi).
    + intros ->. apply Hy. by eapply list_elem_of_lookup_2.
Qed.

(** C5. Leave semantics and finality, in any state the running server can be
    in: a Leave (first token "4") from a registered sender removes the
    sender's member object and nothing else, appends "<name> has left the
    group" to the queue of every remaining member, and is answered with the
    empty string whatever the departing member's queue held.  Afterwards no
    member has the sender's port: a Join from it is carried out, and every
    other command from it is answered with "Illegal request" and changes
    nothing. *)
Theorem leave_finality inputs cm sent message sender i m :
  serve inputs [] = Ok (cm, sent) →
  find_member_by_info cm sender = Some (i, m) →
  command_code message = Some "4" →
  let cm' := add_message (name m +:+ " has left the group") <$> delete i cm in
  handle_message message sender cm = Ok (cm', [("", sender)]) ∧
  port <$> cm' = filter (λ p, p ≠ sender.2) (port <$> cm) ∧
  is_port_available cm' sender = true ∧
  (∀ msg payload,
      PyStr.split_space msg = "1" :: payload →
      let nm := PyStr.join " " payload in
      handle_message msg sender cm' =
      Ok ((add_message (nm +:+ " has joined") <$> cm')
            ++ [mkMember nm sender.2 []],
          [(PyStr.join ", " (name <$> cm'), sender)])) ∧
  (∀ msg code,
      command_code msg = Some code → code ≠ "1" →
      handle_message msg sender cm' = Ok (cm', [(illegal_msg, sender)])).
Proof.
  intros Hrun Hfind [payload Hsplit]%command_code_tokens cm'.
  assert (NoDup (port <$> cm)) as Hnd.
  { destruct (serve_step inputs []) as (cm0 & sent0 & Hrun0 & _ & Hnd).
    rewrite Hrun in Hrun0. injection Hrun0 as <- <-. apply Hnd. constructor. }
  pose proof (find_lookup _ _ _ _ Hfind) as [Hi Hp].
  assert (is_port_available cm' sender = true) as Hav.
  { unfold cm'. rewrite available_fmap by done.
    by eapply available_after_delete. }
  split_and!.
  - rewrite (handle_message_tokens _ _ _ _ _ Hsplit).
    assert (is_port_available cm sender = false) as ->.
    { apply registered_find. eauto. }
    simpl. by rewrite (leave_group_found _ _ _ _ Hfind).
  - unfold cm'. rewrite ports_fmap by done. rewrite list_fmap_delete.
    apply delete_unique; [done|]. by rewrite list_lookup_fmap, Hi, <- Hp.
  - done.
  - intros msg payload' Hmsg nm.
    rewrite (handle_message_tokens _ _ _ _ _ Hmsg).
    rewrite decide_True, Hav by done. simpl.
    by rewrite join_group_available.
  - intros msg code [payload' Hmsg]%command_code_tokens Hcode.
    rewrite (handle_message_tokens _ _ _ _ _ Hmsg).
    by rewrite decide_False, Hav by done.
Qed.

Lemma leave_finality_witness :
  let alice := ("10.0.0.1", 5001) in
  let bob := ("10.0.0.2", 5002) in
  let inputs := [("1 Alice", alice); ("1 Bob", bob); ("2 hello", bob)] in
  let cm := [mkMember "Alice" 5001 ["Bob has joined"; "Bob: hello"];
             mkMember "Bob" 5002 []] in
  serve inputs [] =
    Ok (cm, [("", alice); ("Alice", bob); ("", bob)]) ∧
  find_member_by_info cm alice =
    Some (0%nat, mkMember "Alice" 5001 ["Bob has joined"; "Bob: hello"]) ∧
  command_code "4" = Some "4" ∧
  handle_message "4" alice cm =
    Ok ([mkMember "Bob" 5002 ["Alice has left the group"]], [("", alice)]).
Proof.
  intros alice bob inputs cm.
  split; [reflexivity|]. split; [reflexivity|]. split; [reflexivity|].
  apply (leave_finality inputs cm [("", alice); ("Alice", bob); ("", bob)]
           "4" alice 0
           (mkMember "Alice" 5001 ["Bob has joined"; "Bob: hello"]));
    reflexivity.
Defined.

(** ** Port-only identity *)

Lemma available_port_only cm ip1 ip2 p :
  is_port_available cm (ip1, p) = is_port_available cm (ip2, p).
Proof. induction cm as [|m cm IH]; simpl; [done|]. by rewrite IH. Qed.

(** One request, seen from two hosts that use the same source port. *)
Lemma handle_message_port_only message ip1 ip2 p cm :
  ∃ cm' text,
    handle_message message (ip1, p) cm = Ok (cm', [(text, (ip1, p))]) ∧
    handle_message message (ip2, p) cm = Ok (cm', [(text, (ip2, p))]).
Proof.
  destruct (command_code_total message) as [code Hcode].
  apply command_code_tokens in Hcode as [payload Hsplit].
  rewrite !(handle_message_tokens _ _ _ _ _ Hsplit).
  rewrite <- (available_port_only cm ip1 ip2 p).
  destruct (is_port_available cm (ip1, p)) eqn:Hav; simpl.
  - case_decide; [|by eauto].
    rewrite !join_group_available
      by (done || by rewrite <- (available_port_only cm ip1 ip2 p)).
    by eauto.
  - case_decide; [by eauto|].
    apply registered_find in Hav as (i & m & Hfind).
    assert (find_member_by_info cm (ip2, p) = Some (i, m)) as Hfind2 by done.
    repeat case_decide.
    + rewrite (send_message_found _ _ _ _ _ _ Hfind),
        (send_message_found _ _ _ _ _ _ Hfind2). by eauto.
    + rewrite (change_name_found _ _ _ _ _ _ Hfind),
        (change_name_found _ _ _ _ _ _ Hfind2). by eauto.
    + rewrite (leave_group_found _ _ _ _ Hfind),
        (leave_group_found _ _ _ _ Hfind2). by eauto.
    + rewrite (refresh_messages_found _ _ _ _ Hfind),
        (refresh_messages_found _ _ _ _ Hfind2). by eauto.
    + by eauto.
Qed.

(** C7. Port-only identity: two runs from the same registry, fed the same
    messages from senders that agree on the port but may differ in the IP,
    both run to the end, reach the same registry and send the same response
    texts. *)
Theorem port_only_identity inputs1 inputs2 cm :
  Forall2 (λ a b, a.1 = b.1 ∧ a.2.2 = b.2.2) inputs1 inputs2 →
  ∃ cm' sent1 sent2,
    serve inputs1 cm = Ok (cm', sent1) ∧
    serve inputs2 cm = Ok (cm', sent2) ∧
    sent1.*1 = sent2.*1.
Proof.
  intros Hsame. revert cm.
  induction Hsame as [|[msg1 [ip1 p1]] [msg2 [ip2 p2]] l1 l2 [Hmsg Hport] _ IH];
    intros cm.
  - exists cm, [], []. done.
  - simpl in Hmsg, Hport. subst msg2 p2.
    destruct (handle_message_port_only msg1 ip1 ip2 p1 cm)
      as (cm1 & text & H1 & H2).
    destruct (IH cm1) as (cm' & sent1 & sent2 & Hr1 & Hr2 & Htexts).
    exists cm', ((text, (ip1, p1)) :: sent1), ((text, (ip2, p1)) :: sent2).
    split_and!.
    + simpl. rewrite H1. simpl. by rewrite Hr1.
    + simpl. rewrite H2. simpl. by rewrite Hr2.
    + by rewrite !fmap_cons, Htexts.
Qed.

Lemma port_only_identity_witness :
  let run1 := [("1 Alice", ("10.0.0.1", 5001)); ("1 Bob", ("10.0.0.2", 5002));
               ("3 Al", ("10.0.0.1", 5001)); ("5", ("10.0.0.2", 5002))] in
  let run2 := [("1 Alice", ("10.0.0.1", 5001)); ("1 Bob", ("10.0.0.2", 5002));
               ("3 Al", ("192.168.7.7", 5001)); ("5", ("172.16.0.9", 5002))] in
  Forall2 (λ a b, a.1 = b.1 ∧ a.2.2 = b.2.2) run1 run2 ∧
  ∃ cm' sent1 sent2,
    serve run1 [] = Ok (cm', sent1) ∧
    serve run2 [] = Ok (cm', sent2) ∧
    sent1.*1 = sent2.*1.
Proof.
  intros run1 run2.
  assert (Forall2 (λ a b : string * sender_info, a.1 = b.1 ∧ a.2.2 = b.2.2)
            run1 run2) as Hsame.
  { repeat constructor. }
  split; [exact Hsame|].
  apply (port_only_identity run1 run2 [] Hsame).
Defined.

(** ** The error response *)

Lemma drain_format_not_illegal pending : drain_format pending ≠ illegal_msg.
Proof.
  destruct pending as [|x l]; [done|]. unfold drain_format.
  intros Heq. pose proof (drop_last_snoc (PyStr.join PyStr.newline (x :: l))
                            "010"%char) as Hdrop.
  change (String "010" "") with PyStr.newline in Hdrop.
  rewrite Heq in Hdrop. rewrite <- Hdrop in Heq. vm_compute in Heq.
  discriminate Heq.
Qed.

Lemma not_registered_available cm sender :
  ¬ registered cm sender ↔ is_port_available cm sender = true.
Proof. unfold registered. by destruct (is_port_available cm sender). Qed.

(** C4 as stated fails in its "only if" half: a Join that is carried out is
    answered with the names of the members already there, and that text can
    itself be "Illegal request".  Here none of the three error conditions
    holds and the registry grows, yet the response is the error text. *)
Lemma illegal_text_on_successful_join :
  let eve := ("10.0.0.1", 5001) in
  let bob := ("10.0.0.2", 5002) in
  ∃ cm cm',
    serve [("1 Illegal request", eve)] [] = Ok (cm, [("", eve)]) ∧
    handle_message "1 Bob" bob cm = Ok (cm', [(illegal_msg, bob)]) ∧
    cm' ≠ cm ∧
    ¬ illegal_condition "1 Bob" bob cm.
Proof.
  intros eve bob.
  exists [mkMember "Illegal request" 5001 []],
         [mkMember "Illegal request" 5001 ["Bob has joined"];
          mkMember "Bob" 5002 []].
  split_and!; [done|done|done|].
  intros [[_ Hreg]|[[Hcode _]|[Hreg _]]]; [done| |done].
  by apply Hcode.
Qed.

(** C4, amended. Whenever (a) a Join comes from a registered port, (b) any
    other first token comes from an unregistered port, or (c) a first token
    outside "1".."5" comes from a registered port, the response is exactly
    "Illegal request" and the registry with all its queues is unchanged.
    Conversely, a response with the text "Illegal request" arises only in
    these three cases, or from a Join that is carried out while the
    comma-joined names of the members already present spell that text. *)
Theorem illegal_request_conditions message sender cm :
  (illegal_condition message sender cm →
   handle_message message sender cm = Ok (cm, [(illegal_msg, sender)])) ∧
  (∀ cm' dest,
      handle_message message sender cm = Ok (cm', [(illegal_msg, dest)]) →
      illegal_condition message sender cm ∨
      (command_code message = Some "1" ∧ ¬ registered cm sender ∧
       PyStr.join ", " (name <$> cm) = illegal_msg)).
Proof.
  destruct (command_code_total message) as [code Hcode].
  pose proof Hcode as [payload Hsplit]%command_code_tokens.
  rewrite (handle_message_tokens _ _ _ _ _ Hsplit).
  unfold illegal_condition. rewrite Hcode. split.
  - intros [[[= ->] Hreg]|[[Hne Hav%not_registered_available]|[Hreg Hnone]]].
    + unfold registered in Hreg. by rewrite decide_True, Hreg by done.
    + rewrite decide_False by congruence. by rewrite Hav.
    + unfold registered in Hreg. rewrite Hreg. simpl.
      specialize (Hnone code eq_refl).
      rewrite !not_elem_of_cons in Hnone.
      destruct Hnone as (? & ? & ? & ? & ? & _).
      by rewrite !decide_False by done.
  - intros cm' dest.
    destruct (is_port_available cm sender) eqn:Hav; simpl.
    + case_decide as Hc.
      * subst code. rewrite join_group_available by done.
        intros [= _ Hnames _]. right.
        split_and!; [done|by apply not_registered_available|done].
      * intros _. left. right. left.
        split; [congruence|by apply not_registered_available].
    + case_decide as Hc; [intros _; left; left; by subst|].
      pose proof Hav as (i & m & Hfind)%registered_find.
      repeat case_decide.
      * rewrite (send_message_found _ _ _ _ _ _ Hfind).
        intros [= _ Htext _]. by apply drain_format_not_illegal in Htext.
      * rewrite (change_name_found _ _ _ _ _ _ Hfind).
        intros [= _ Htext _]. by apply drain_format_not_illegal in Htext.
      * rewrite (leave_group_found _ _ _ _ Hfind). by intros [=].
      * rewrite (refresh_messages_found _ _ _ _ Hfind).
        intros [= _ Htext _]. by apply drain_format_not_illegal in Htext.
      * intros _. left. right. right. split; [done|].
        intros code' [= <-]. rewrite !not_elem_of_cons.
        split_and!; [done..|apply not_elem_of_nil].
Qed.

Lemma illegal_request_conditions_witness :
  let cm := [mkMember "Alice" 5001 ["Bob: hi"]] in
  illegal_condition "2 hello" ("10.0.0.3", 5003) cm ∧
  handle_message "2 hello" ("10.0.0.3", 5003) cm =
    Ok (cm, [(illegal_msg, ("10.0.0.3", 5003))]).
Proof.
  intros cm.
  assert (illegal_condition "2 hello" ("10.0.0.3", 5003) cm) as Hill.
  { right. left. split; [discriminate|]. unfold registered. discriminate. }
  split; [exact Hill|].
  apply (proj1 (illegal_request_conditions "2 hello" ("10.0.0.3", 5003) cm)).
  exact Hill.
Defined.


(** * Further properties of the server *)

(** ** Shared facts *)

Lemma tokens_no_space s : Forall PyStr.no_space (PyStr.split_space s).
Proof.
  induction s as [|c s IH]; simpl.
  - by repeat constructor.
  - case_decide as Hc.
    + by constructor.
    + destruct (PyStr.split_space s) as [|tok toks].
      * by repeat constructor.
      * inversion IH as [|?? Htok Htoks]; subst. by repeat constructor.
Qed.

Lemma split_space_plain s : PyStr.no_space s → PyStr.split_space s = [s].
Proof.
  induction s as [|c s IH]; [done|]. intros [Hc Hs]. simpl.
  rewrite decide_False by done. by rewrite IH.
Qed.

Lemma find_appended cm sender nm queue :
  is_port_available cm sender = true →
  find_member_by_info (cm ++ [mkMember nm sender.2 queue]) sender =
  Some (length cm, mkMember nm sender.2 queue).
Proof.
  intros Hav%available_find_None. unfold find_member_by_info in *.
  rewrite list_find_app_r by done. simpl. by rewrite decide_True.
Qed.

Lemma available_app cm1 cm2 sender :
  is_port_available (cm1 ++ cm2) sender =
  is_port_available cm1 sender && is_port_available cm2 sender.
Proof.
  induction cm1 as [|m cm1 IH]; simpl; [done|]. by case_decide.
Qed.

(** The dispatcher on each of the five commands, once the guard has passed. *)
Lemma handle_join message payload sender cm :
  PyStr.split_space message = "1" :: payload →
  is_port_available cm sender = true →
  handle_message message sender cm =
  Ok ((add_message (PyStr.join " " payload +:+ " has joined") <$> cm)
        ++ [mkMember (PyStr.join " " payload) sender.2 []],
      [(PyStr.join ", " (name <$> cm), sender)]).
Proof.
  intros Hsplit Hav. rewrite (handle_message_tokens _ _ _ _ _ Hsplit).
  rewrite decide_True, Hav by done. simpl.
  by rewrite join_group_available.
Qed.

Lemma handle_registered message code payload sender cm i m :
  PyStr.split_space message = code :: payload →
  find_member_by_info cm sender = Some (i, m) →
  code ≠ "1" →
  handle_message message sender cm =
  if decide (code = "2") then send_message (code :: payload) sender cm
  else if decide (code = "3") then change_name (code :: payload) sender cm
  else if decide (code = "4") then leave_group sender cm
  else if decide (code = "5") then refresh_messages sender cm
  else Ok (cm, [(illegal_msg, sender)]).
Proof.
  intros Hsplit Hfind Hcode. rewrite (handle_message_tokens _ _ _ _ _ Hsplit).
  rewrite decide_False by done.
  assert (is_port_available cm sender = false) as ->; [|done].
  apply registered_find. eauto.
Qed.

Lemma handle_send message payload sender cm i m :
  PyStr.split_space message = "2" :: payload →
  find_member_by_info cm sender = Some (i, m) →
  handle_message message sender cm =
  Ok (<[i := clear_message_board m]>
        (send_notify (name m)
           (name m +:+ (": " +:+ PyStr.join " " payload)) <$> cm),
      [(drain_format (pending_messages m), sender)]).
Proof.
  intros Hsplit Hfind.
  rewrite (handle_registered _ _ _ _ _ _ _ Hsplit Hfind) by done.
  rewrite decide_True by done. by apply send_message_found.
Qed.

Lemma handle_rename message payload sender cm i m :
  PyStr.split_space message = "3" :: payload →
  find_member_by_info cm sender = Some (i, m) →
  handle_message message sender cm =
  Ok (<[i := mkMember (PyStr.join " " payload) (port m) []]>
        (rename_notify sender
           (name m +:+ (" changed his name to " +:+ PyStr.join " " payload))
           (PyStr.join " " payload) <$> cm),
      [(drain_format (pending_messages m), sender)]).
Proof.
  intros Hsplit Hfind.
  rewrite (handle_registered _ _ _ _ _ _ _ Hsplit Hfind) by done.
  rewrite decide_False, decide_True by done. by apply change_name_found.
Qed.

Lemma handle_leave message payload sender cm i m :
  PyStr.split_space message = "4" :: payload →
  find_member_by_info cm sender = Some (i, m) →
  handle_message message sender cm =
  Ok (add_message (name m +:+ " has left the group") <$> delete i cm,
      [("", sender)]).
Proof.
  intros Hsplit Hfind.
  rewrite (handle_registered _ _ _ _ _ _ _ Hsplit Hfind) by done.
  rewrite !decide_False, decide_True by done. by apply leave_group_found.
Qed.

Lemma handle_poll message payload sender cm i m :
  PyStr.split_space message = "5" :: payload →
  find_member_by_info cm sender = Some (i, m) →
  handle_message message sender cm =
  Ok (<[i := clear_message_board m]> cm,
      [(drain_format (pending_messages m), sender)]).
Proof.
  intros Hsplit Hfind.
  rewrite (handle_registered _ _ _ _ _ _ _ Hsplit Hfind) by done.
  rewrite !decide_False, decide_True by done.
  by apply refresh_messages_found.
Qed.

(** The loop, one request at a time. *)
Lemma serve_cons msg sender rest cm cm1 out1 cm2 outs :
  handle_message msg sender cm = Ok (cm1, out1) →
  serve rest cm1 = Ok (cm2, outs) →
  serve ((msg, sender) :: rest) cm = Ok (cm2, out1 ++ outs).
Proof. intros H1 H2. simpl. rewrite H1. simpl. by rewrite H2. Qed.

(** Passes over the list that leave a field alone. *)
Lemma field_fmap {B} (g : Member → B) (f : Member → Member)
    (cm : list Member) :
  (∀ m, g (f m) = g m) → g <$> (f <$> cm) = g <$> cm.
Proof.
  intros Hf. rewrite <- list_fmap_compose. apply list_fmap_ext.
  intros ? m _. apply Hf.
Qed.

Lemma field_insert {B} (g : Member → B) (cm : list Member) i m m' :
  cm !! i = Some m → g m' = g m → g <$> <[i := m']> cm = g <$> cm.
Proof.
  intros Hi Hg. rewrite list_fmap_insert, Hg.
  apply list_insert_id. by rewrite list_lookup_fmap, Hi.
Qed.

Lemma name_send_notify nm msg m : name (send_notify nm msg m) = name m.
Proof. unfold send_notify. by case_decide. Qed.

(** ** One request, one response *)

(** X1. Whenever the loop gets through a run of decoded requests, it has
    called [sendto] exactly once per request, in request order, each time
    with the full address (IP and port) the request came from: no datagram
    is ever addressed to anybody but the requester. *)
Theorem one_response_per_request inputs cm cm' sent :
  serve inputs cm = Ok (cm', sent) → sent.*2 = inputs.*2.
Proof.
  revert cm cm' sent.
  induction inputs as [|[message sender] inputs IH]; intros cm cm' sent; simpl.
  - by intros [= _ <-].
  - destruct (handle_message_step message sender cm) as (cm1 & text & H1 & _).
    rewrite H1. simpl.
    destruct (serve inputs cm1) as [[cm2 rest]|] eqn:Hrest; simpl; [|done].
    intros [= _ <-]. by rewrite fmap_cons, (IH _ _ _ Hrest).
Qed.

Lemma one_response_per_request_witness :
  let alice := ("10.0.0.1", 5001) in
  let bob := ("10.0.0.2", 5002) in
  let eve := ("192.168.7.7", 5001) in
  let inputs := [("1 Alice", alice); ("1 Bob", bob); ("2 hi", bob);
                 ("5", eve); ("9", bob)] in
  let cm' := [mkMember "Alice" 5001 []; mkMember "Bob" 5002 []] in
  let sent := [("", alice); ("Alice", bob); ("", bob);
               ("Bob has joined" +:+ PyStr.newline
                  +:+ "Bob: hi" +:+ PyStr.newline, eve);
               (illegal_msg, bob)] in
  serve inputs [] = Ok (cm', sent) ∧ sent.*2 = inputs.*2.
Proof.
  intros alice bob eve inputs cm' sent.
  assert (serve inputs [] = Ok (cm', sent)) as Hrun by reflexivity.
  split; [exact Hrun|].
  apply (one_response_per_request inputs [] cm' sent Hrun).
Defined.

(** ** The two lookup loops *)

(** X2. [find_member_by_info] and [is_port_available] agree: the port is
    reported taken exactly when a member is found, the member found sits in
    the list, has the sender's port and is the first one that has it; when
    none is found no member has that port. *)
Theorem lookups_agree cm sender :
  match find_member_by_info cm sender with
  | Some (i, m) =>
      is_port_available cm sender = false ∧
      cm !! i = Some m ∧ port m = sender.2 ∧
      ∀ j mj, cm !! j = Some mj → (j < i)%nat → port mj ≠ sender.2
  | None =>
      is_port_available cm sender = true ∧
      ∀ m, m ∈ cm → port m ≠ sender.2
  end.
Proof.
  destruct (find_member_by_info cm sender) as [[i m]|] eqn:Hfind.
  - split; [apply registered_find; eauto|].
    apply list_find_Some in Hfind as (Hi & Hp & Hfirst).
    split_and!; [done|done|]. intros j mj Hj Hlt Hport.
    by apply (Hfirst j mj Hj Hlt).
  - split; [by apply available_find_None|].
    apply list_find_None in Hfind. rewrite Forall_forall in Hfind.
    intros m Hm Hport. by apply (Hfind m Hm).
Qed.

(** ** Join *)

(** X3. A Join from an unregistered port, whatever the name: every member
    already present gets "<name> has joined" appended, the new member is
    added last with the name made of the payload tokens and an empty queue,
    and the response lists the names of the members already present, in
    list order.  Afterwards the lookup finds the new member, the port is
    taken, and the availability of every other port is as before. *)
Theorem join_registers message payload sender cm :
  PyStr.split_space message = "1" :: payload →
  is_port_available cm sender = true →
  let nm := PyStr.join " " payload in
  let cm' := (add_message (nm +:+ " has joined") <$> cm)
               ++ [mkMember nm sender.2 []] in
  handle_message message sender cm =
    Ok (cm', [(PyStr.join ", " (name <$> cm), sender)]) ∧
  find_member_by_info cm' sender = Some (length cm, mkMember nm sender.2 []) ∧
  is_port_available cm' sender = false ∧
  (∀ other : sender_info,
      other.2 ≠ sender.2 →
      is_port_available cm' other = is_port_available cm other).
Proof.
  intros Hsplit Hav nm cm'. split_and!.
  - by apply handle_join.
  - unfold cm'. rewrite find_appended by (by rewrite available_fmap).
    by rewrite length_fmap.
  - apply registered_find. exists (length cm), (mkMember nm sender.2 []).
    unfold cm'. rewrite find_appended by (by rewrite available_fmap).
    by rewrite length_fmap.
  - intros other Hother. unfold cm'.
    rewrite available_app, available_fmap by done. simpl.
    rewrite decide_False by congruence. by rewrite andb_true_r.
Qed.

Lemma join_registers_witness :
  let cm := [mkMember "Alice" 5001 []; mkMember "Bob" 5002 ["Alice: hi"]] in
  let carol := ("10.0.0.3", 5003) in
  PyStr.split_space "1 Carol Ann" = "1" :: ["Carol"; "Ann"] ∧
  is_port_available cm carol = true ∧
  handle_message "1 Carol Ann" carol cm =
    Ok ([mkMember "Alice" 5001 ["Carol Ann has joined"];
         mkMember "Bob" 5002 ["Alice: hi"; "Carol Ann has joined"];
         mkMember "Carol Ann" 5003 []],
        [("Alice, Bob", carol)]).
Proof.
  intros cm carol.
  split; [reflexivity|]. split; [reflexivity|].
  apply (join_registers "1 Carol Ann" ["Carol"; "Ann"] carol cm); reflexivity.
Defined.

(** X4. Join followed at once by Leave from the same, previously
    unregistered, port: the registry gets back exactly the members it had,
    each with the two notifications "<name> has joined" and "<name> has left
    the group" appended, and the responses are the name list and the empty
    string. *)
Theorem join_then_leave join_msg leave_msg payload sender cm :
  PyStr.split_space join_msg = "1" :: payload →
  command_code leave_msg = Some "4" →
  is_port_available cm sender = true →
  let nm := PyStr.join " " payload in
  serve [(join_msg, sender); (leave_msg, sender)] cm =
  Ok (add_message (nm +:+ " has left the group")
        <$> (add_message (nm +:+ " has joined") <$> cm),
      [(PyStr.join ", " (name <$> cm), sender); ("", sender)]).
Proof.
  intros Hjoin [payload' Hleave]%command_code_tokens Hav nm.
  set (cm1 := add_message (nm +:+ " has joined") <$> cm).
  assert (is_port_available cm1 sender = true) as Hav1.
  { unfold cm1. by rewrite available_fmap. }
  pose proof (find_appended cm1 sender nm [] Hav1) as Hfind.
  erewrite serve_cons; [|by apply handle_join|].
  2:{ erewrite serve_cons; [done|by eapply handle_leave|done]. }
  simpl. by rewrite (delete_middle cm1 []), app_nil_r.
Qed.

Lemma join_then_leave_witness :
  let cm := [mkMember "Alice" 5001 ["x"]] in
  let bob := ("10.0.0.2", 5002) in
  PyStr.split_space "1 Bob" = "1" :: ["Bob"] ∧
  command_code "4" = Some "4" ∧
  is_port_available cm bob = true ∧
  serve [("1 Bob", bob); ("4", bob)] cm =
  Ok ([mkMember "Alice" 5001 ["x"; "Bob has joined"; "Bob has left the group"]],
      [("Alice", bob); ("", bob)]).
Proof.
  intros cm bob.
  split; [reflexivity|]. split; [reflexivity|]. split; [reflexivity|].
  apply (join_then_leave "1 Bob" "4" ["Bob"] bob cm); reflexivity.
Defined.

(** ** Rename *)

(** X5. In a registry with unique ports a Rename from a registered sender
    replaces the sender's name by the payload and leaves every other name,
    every port and the order of the members as they were. *)
Theorem rename_changes_one_name message payload sender cm i m :
  NoDup (port <$> cm) →
  PyStr.split_space message = "3" :: payload →
  find_member_by_info cm sender = Some (i, m) →
  ∃ cm' sent,
    handle_message message sender cm = Ok (cm', sent) ∧
    name <$> cm' = <[i := PyStr.join " " payload]> (name <$> cm) ∧
    port <$> cm' = port <$> cm.
Proof.
  intros Hnd Hsplit Hfind. rewrite (handle_rename _ _ _ _ _ _ Hsplit Hfind).
  pose proof (find_lookup _ _ _ _ Hfind) as [Hi Hp].
  do 2 eexists. split; [done|]. split.
  - rewrite list_fmap_insert. simpl. apply list_eq. intros j.
    destruct (decide (j = i)) as [->|Hne].
    + rewrite !list_lookup_insert_eq; [done| |].
      * rewrite length_fmap. by eapply lookup_lt_Some.
      * rewrite !length_fmap. by eapply lookup_lt_Some.
    + rewrite !list_lookup_insert_ne by done.
      rewrite !list_lookup_fmap.
      destruct (cm !! j) as [mj|] eqn:Hj; [|done]. simpl. f_equal.
      unfold rename_notify. rewrite decide_True; [done|].
      intros Hport. apply Hne.
      eapply (NoDup_lookup (port <$> cm) j i (port mj)); [done| |].
      * by rewrite list_lookup_fmap, Hj.
      * rewrite list_lookup_fmap, Hi. simpl. congruence.
  - erewrite field_insert.
    + apply field_fmap. intros. apply port_rename_notify.
    + by rewrite list_lookup_fmap, Hi.
    + by rewrite port_rename_notify.
Qed.

Lemma rename_changes_one_name_witness :
  let cm := [mkMember "Alice" 5001 []; mkMember "Bob" 5002 ["Alice: hi"]] in
  let bob := ("10.0.0.2", 5002) in
  NoDup (port <$> cm) ∧
  PyStr.split_space "3 Bobby" = "3" :: ["Bobby"] ∧
  find_member_by_info cm bob = Some (1%nat, mkMember "Bob" 5002 ["Alice: hi"]) ∧
  ∃ cm' sent,
    handle_message "3 Bobby" bob cm = Ok (cm', sent) ∧
    name <$> cm' = ["Alice"; "Bobby"] ∧
    port <$> cm' = [5001; 5002].
Proof.
  intros cm bob.
  assert (NoDup (port <$> cm)) as Hnd.
  { apply (bool_decide_unpack _). vm_compute. exact I. }
  split; [exact Hnd|]. split; [reflexivity|]. split; [reflexivity|].
  apply (rename_changes_one_name "3 Bobby" ["Bobby"] bob cm 1
           (mkMember "Bob" 5002 ["Alice: hi"]) Hnd); reflexivity.
Defined.

(** X6. Only Join and Leave change who is registered: after any other
    request (Send, Rename, Poll, an unknown code, or a request that is
    refused) the list of ports is the same, and unless the request is a
    Rename the list of names is the same too. *)
Theorem membership_frame message code sender cm cm' sent :
  handle_message message sender cm = Ok (cm', sent) →
  command_code message = Some code →
  code ≠ "1" → code ≠ "4" →
  port <$> cm' = port <$> cm ∧
  (code ≠ "3" → name <$> cm' = name <$> cm).
Proof.
  intros Hrun [payload Hsplit]%command_code_tokens Hjoin Hleave.
  destruct (find_member_by_info cm sender) as [[i m]|] eqn:Hfind.
  - pose proof (find_lookup _ _ _ _ Hfind) as [Hi Hp].
    rewrite (handle_registered _ _ _ _ _ _ _ Hsplit Hfind) in Hrun by done.
    repeat case_decide; subst.
    + rewrite (send_message_found _ _ _ _ _ _ Hfind) in Hrun.
      injection Hrun as <- _. split; [|intros _].
      * erewrite field_insert;
          [apply field_fmap; intros; apply port_send_notify
          |by rewrite list_lookup_fmap, Hi|by rewrite port_send_notify].
      * erewrite field_insert;
          [apply field_fmap; intros; apply name_send_notify
          |by rewrite list_lookup_fmap, Hi|by rewrite name_send_notify].
    + rewrite (change_name_found _ _ _ _ _ _ Hfind) in Hrun.
      injection Hrun as <- _. split; [|done].
      erewrite field_insert;
        [apply field_fmap; intros; apply port_rename_notify
        |by rewrite list_lookup_fmap, Hi|by rewrite port_rename_notify].
    + done.
    + rewrite (refresh_messages_found _ _ _ _ Hfind) in Hrun.
      injection Hrun as <- _. split; [|intros _]; by erewrite field_insert.
    + by injection Hrun as <- _.
  - apply available_find_None in Hfind.
    rewrite (handle_message_tokens _ _ _ _ _ Hsplit) in Hrun.
    rewrite decide_False, Hfind in Hrun by done.
    by injection Hrun as <- _.
Qed.

Lemma membership_frame_witness :
  let cm := [mkMember "Alice" 5001 []; mkMember "Bob" 5002 ["Alice: hi"]] in
  let cm' := [mkMember "Alice" 5001 ["Bob: yo"]; mkMember "Bob" 5002 []] in
  let bob := ("10.0.0.2", 5002) in
  handle_message "2 yo" bob cm =
    Ok (cm', [("Alice: hi" +:+ PyStr.newline, bob)]) ∧
  command_code "2 yo" = Some "2" ∧
  port <$> cm' = port <$> cm ∧
  ("2" ≠ "3" → name <$> cm' = name <$> cm).
Proof.
  intros cm cm' bob.
  split; [reflexivity|]. split; [reflexivity|].
  apply (membership_frame "2 yo" "2" bob cm cm'
           [("Alice: hi" +:+ PyStr.newline, bob)]);
    [reflexivity|reflexivity|discriminate|discriminate].
Defined.

(** ** Bystanders *)

(** X7. A request never removes, reorders or rewrites what is queued for
    anybody else: a member whose port differs from the requester's is still
    registered afterwards (at the same position, or one position earlier
    after a Leave), with the same name and port, and its queue is the old
    queue with at most one line appended. *)
Theorem bystander_queue_grows message sender cm cm' sent j mj :
  handle_message message sender cm = Ok (cm', sent) →
  cm !! j = Some mj →
  port mj ≠ sender.2 →
  ∃ j' mj',
    cm' !! j' = Some mj' ∧ (j' = j ∨ S j' = j) ∧
    name mj' = name mj ∧ port mj' = port mj ∧
    (pending_messages mj' = pending_messages mj ∨
     ∃ line, pending_messages mj' = pending_messages mj ++ [line]).
Proof.
  intros Hrun Hj Hport.
  destruct (command_code_total message) as [code Hcode].
  apply command_code_tokens in Hcode as [payload Hsplit].
  assert (∃ j' mj', cm !! j' = Some mj' ∧ (j' = j ∨ S j' = j) ∧
            name mj' = name mj ∧ port mj' = port mj ∧
            (pending_messages mj' = pending_messages mj ∨
             ∃ line, pending_messages mj' = pending_messages mj ++ [line]))
    as Hsame by (exists j, mj; split_and!; auto).
  destruct (find_member_by_info cm sender) as [[i m]|] eqn:Hfind.
  - pose proof (find_lookup _ _ _ _ Hfind) as [Hi Hp].
    assert (j ≠ i) as Hne by (intros ->; congruence).
    destruct (decide (code = "1")) as [->|Hjoin].
    { rewrite (handle_message_tokens _ _ _ _ _ Hsplit) in Hrun.
      assert (is_port_available cm sender = false) as Hreg
        by (apply registered_find; eauto).
      rewrite decide_True, Hreg in Hrun by done.
      by injection Hrun as <- _. }
    rewrite (handle_registered _ _ _ _ _ _ _ Hsplit Hfind) in Hrun by done.
    repeat case_decide; subst.
    + rewrite (send_message_found _ _ _ _ _ _ Hfind) in Hrun.
      injection Hrun as <- _. eexists j, _. split.
      { rewrite list_lookup_insert_ne by done.
        by rewrite list_lookup_fmap, Hj. }
      unfold send_notify. case_decide; simpl; eauto 10.
    + rewrite (change_name_found _ _ _ _ _ _ Hfind) in Hrun.
      injection Hrun as <- _. eexists j, _. split.
      { rewrite list_lookup_insert_ne by done.
        by rewrite list_lookup_fmap, Hj. }
      unfold rename_notify. rewrite decide_True by congruence.
      simpl; eauto 10.
    + rewrite (leave_group_found _ _ _ _ Hfind) in Hrun.
      injection Hrun as <- _. destruct (decide (j < i)%nat) as [Hlt|Hge].
      * eexists j, _. split.
        { rewrite list_lookup_fmap, list_lookup_delete_lt by done.
          by rewrite Hj. }
        simpl; eauto 10.
      * destruct j as [|j]; [lia|]. eexists j, _. split.
        { rewrite list_lookup_fmap, list_lookup_delete_ge by lia.
          by rewrite Hj. }
        simpl; eauto 10.
    + rewrite (refresh_messages_found _ _ _ _ Hfind) in Hrun.
      injection Hrun as <- _. eexists j, mj. split; [|by auto].
      by rewrite list_lookup_insert_ne.
    + by injection Hrun as <- _.
  - apply available_find_None in Hfind.
    rewrite (handle_message_tokens _ _ _ _ _ Hsplit) in Hrun.
    rewrite Hfind in Hrun. simpl in Hrun. case_decide; subst.
    + rewrite join_group_available in Hrun by done.
      injection Hrun as <- _. eexists j, _. split.
      { rewrite lookup_app_l by (rewrite length_fmap; by eapply lookup_lt_Some).
        by rewrite list_lookup_fmap, Hj. }
      simpl; eauto 10.
    + by injection Hrun as <- _.
Qed.

Lemma bystander_queue_grows_witness :
  let cm := [mkMember "Alice" 5001 ["x"]; mkMember "Bob" 5002 ["y"];
             mkMember "Carol" 5003 ["z"]] in
  let cm' := [mkMember "Bob" 5002 ["y"; "Alice has left the group"];
              mkMember "Carol" 5003 ["z"; "Alice has left the group"]] in
  let alice := ("10.0.0.1", 5001) in
  handle_message "4" alice cm = Ok (cm', [("", alice)]) ∧
  cm !! 2%nat = Some (mkMember "Carol" 5003 ["z"]) ∧
  5003 ≠ 5001 ∧
  ∃ j' mj',
    cm' !! j' = Some mj' ∧ (j' = 2%nat ∨ S j' = 2%nat) ∧
    name mj' = "Carol" ∧ port mj' = 5003 ∧
    (pending_messages mj' = ["z"] ∨
     ∃ line, pending_messages mj' = ["z"] ++ [line]).
Proof.
  intros cm cm' alice.
  split; [reflexivity|]. split; [reflexivity|]. split; [lia|].
  apply (bystander_queue_grows "4" alice cm cm' [("", alice)] 2
           (mkMember "Carol" 5003 ["z"]));
    [reflexivity|reflexivity|simpl; lia].
Defined.

(** X10. Rename followed by Send from the same registered sender: a member
    on another port whose name is not the new name receives first
    "<old> changed his name to <new>" and then "<new>: <text>", so the Send
    goes out under the new name. *)
Theorem rename_then_send rename_msg send_msg new_tokens text_tokens
    sender cm i m j mj :
  PyStr.split_space rename_msg = "3" :: new_tokens →
  PyStr.split_space send_msg = "2" :: text_tokens →
  find_member_by_info cm sender = Some (i, m) →
  cm !! j = Some mj →
  port mj ≠ sender.2 →
  name mj ≠ PyStr.join " " new_tokens →
  let new := PyStr.join " " new_tokens in
  ∃ cm' sent,
    serve [(rename_msg, sender); (send_msg, sender)] cm = Ok (cm', sent) ∧
    cm' !! j =
      Some (add_message (new +:+ (": " +:+ PyStr.join " " text_tokens))
              (add_message (name m +:+ (" changed his name to " +:+ new))
                 mj)).
Proof.
  intros Hren Hsend Hfind Hj Hport Hname new.
  pose proof (find_lookup _ _ _ _ Hfind) as [Hi Hp].
  assert (j ≠ i) as Hne by (intros ->; congruence).
  set (cm1 := <[i := mkMember new (port m) []]>
                (rename_notify sender
                   (name m +:+ (" changed his name to " +:+ new)) new
                   <$> cm)).
  assert (find_member_by_info cm1 sender = Some (i, mkMember new (port m) []))
    as Hfind1.
  { unfold cm1. eapply find_insert_same_port.
    - rewrite find_fmap by apply port_rename_notify. by rewrite Hfind.
    - simpl. by rewrite port_rename_notify. }
  do 2 eexists. split.
  - eapply serve_cons; [by apply (handle_rename _ _ _ _ _ _ Hren Hfind)|].
    eapply serve_cons; [by apply (handle_send _ _ _ _ _ _ Hsend Hfind1)|done].
  - rewrite list_lookup_insert_ne by done.
    rewrite list_lookup_fmap. unfold cm1.
    rewrite list_lookup_insert_ne by done.
    rewrite list_lookup_fmap, Hj. simpl. f_equal.
    unfold rename_notify. rewrite decide_True by congruence.
    unfold send_notify. by rewrite decide_True.
Qed.

Lemma rename_then_send_witness :
  let cm := [mkMember "Alice" 5001 []; mkMember "Bob" 5002 []] in
  let bob := ("10.0.0.2", 5002) in
  PyStr.split_space "3 Bobby" = "3" :: ["Bobby"] ∧
  PyStr.split_space "2 hi all" = "2" :: ["hi"; "all"] ∧
  find_member_by_info cm bob = Some (1%nat, mkMember "Bob" 5002 []) ∧
  cm !! 0%nat = Some (mkMember "Alice" 5001 []) ∧
  5001 ≠ 5002 ∧
  "Alice" ≠ "Bobby" ∧
  ∃ cm' sent,
    serve [("3 Bobby", bob); ("2 hi all", bob)] cm = Ok (cm', sent) ∧
    cm' !! 0%nat =
      Some (mkMember "Alice" 5001
              ["Bob changed his name to Bobby"; "Bobby: hi all"]).
Proof.
  intros cm bob.
  split; [reflexivity|]. split; [reflexivity|]. split; [reflexivity|].
  split; [reflexivity|]. split; [lia|]. split; [discriminate|].
  apply (rename_then_send "3 Bobby" "2 hi all" ["Bobby"] ["hi"; "all"] bob cm
           1 (mkMember "Bob" 5002 []) 0 (mkMember "Alice" 5001 []));
    [reflexivity|reflexivity|reflexivity|reflexivity|simpl; lia|discriminate].
Defined.

(** ** Decoding a request *)

(** X11. Decoding is total and lossless: every raw message has a first
    token without a space, [merge_str] on its tokens never raises, and the
    message is the code alone (payload empty) or the code, one space, and
    the payload, character for character (repeated, leading and trailing
    spaces of the payload included). *)
Theorem payload_extraction message :
  ∃ code payload,
    command_code message = Some code ∧
    PyStr.no_space code ∧
    merge_str (PyStr.split_space message) = Ok payload ∧
    ((message = code ∧ payload = "") ∨
     message = code +:+ (" " +:+ payload)).
Proof.
  pose proof (tokens_no_space message) as Hns.
  pose proof (join_split_space message) as Hjoin.
  pose proof (split_space_nonempty message) as Hne.
  unfold command_code.
  destruct (PyStr.split_space message) as [|code rest]; [done|].
  exists code, (PyStr.join " " rest).
  apply Forall_cons in Hns as [Hcode _].
  split_and!; [done|done|apply merge_str_cons|].
  destruct rest as [|tok rest]; [left|right]; by rewrite <- Hjoin.
Qed.

(** X12. The dispatcher reads the payload only for Join, Send and Rename:
    two messages with the same first token, other than "1", "2" and "3",
    have the same effect and the same response, whatever follows the token. *)
Theorem payload_ignored message1 message2 code sender cm :
  command_code message1 = Some code →
  command_code message2 = Some code →
  code ∉ ["1"; "2"; "3"] →
  handle_message message1 sender cm = handle_message message2 sender cm.
Proof.
  intros [p1 H1]%command_code_tokens [p2 H2]%command_code_tokens Hcode.
  rewrite !not_elem_of_cons in Hcode. destruct Hcode as (? & ? & ? & _).
  rewrite (handle_message_tokens _ _ _ _ _ H1),
    (handle_message_tokens _ _ _ _ _ H2).
  destruct (is_port_available cm sender); repeat case_decide; done.
Qed.

Lemma payload_ignored_witness :
  let cm := [mkMember "Alice" 5001 ["Bob: hi"]] in
  command_code "5" = Some "5" ∧
  command_code "5 and more" = Some "5" ∧
  ("5" ∉ ["1"; "2"; "3"]) ∧
  handle_message "5" ("10.0.0.1", 5001) cm =
  handle_message "5 and more" ("10.0.0.1", 5001) cm.
Proof.
  intros cm.
  assert ("5" ∉ ["1"; "2"; "3"]) as Hcode.
  { rewrite !not_elem_of_cons. split_and!; [discriminate..|].
    apply not_elem_of_nil. }
  split; [reflexivity|]. split; [reflexivity|]. split; [exact Hcode|].
  apply (payload_ignored "5" "5 and more" "5" ("10.0.0.1", 5001) cm);
    [reflexivity|reflexivity|exact Hcode].
Defined.

(** ** The handlers without the dispatcher's guard *)

(** X13. The four handlers for registered senders look the sender up and use
    the result unchecked: called for a port that is not registered, each of
    them raises [AttributeError] before it changes or sends anything.  Only
    the guard in [handle_message] keeps that from happening. *)
Theorem handlers_need_guard substr sender cm :
  is_port_available cm sender = true →
  send_message substr sender cm = Raise AttributeError ∧
  change_name substr sender cm = Raise AttributeError ∧
  leave_group sender cm = Raise AttributeError ∧
  refresh_messages sender cm = Raise AttributeError.
Proof.
  intros Hfind%available_find_None.
  unfold send_message, change_name, leave_group, refresh_messages.
  by rewrite Hfind.
Qed.

Lemma handlers_need_guard_witness :
  let cm := [mkMember "Alice" 5001 []] in
  let bob := ("10.0.0.2", 5002) in
  is_port_available cm bob = true ∧
  send_message ["2"; "hi"] bob cm = Raise AttributeError ∧
  change_name ["2"; "hi"] bob cm = Raise AttributeError ∧
  leave_group bob cm = Raise AttributeError ∧
  refresh_messages bob cm = Raise AttributeError.
Proof.
  intros cm bob. split; [reflexivity|].
  apply (handlers_need_guard ["2"; "hi"] bob cm). reflexivity.
Defined.

(** ** Leaving and coming back *)

(** X14. In a registry with unique ports, a member that leaves, joins again
    from the same port and polls at once gets the empty string, then the
    names of the remaining members, then the empty string: whatever was
    queued for it when it left is sent to nobody, and the new registration
    starts with an empty queue. *)
Theorem leave_rejoin_discards leave_msg join_msg poll_msg payload
    sender cm i m :
  NoDup (port <$> cm) →
  find_member_by_info cm sender = Some (i, m) →
  command_code leave_msg = Some "4" →
  PyStr.split_space join_msg = "1" :: payload →
  command_code poll_msg = Some "5" →
  ∃ cm',
    serve [(leave_msg, sender); (join_msg, sender); (poll_msg, sender)] cm =
    Ok (cm', [("", sender);
              (PyStr.join ", " (name <$> delete i cm), sender);
              ("", sender)]) ∧
    find_member_by_info cm' sender =
      Some (length (delete i cm), mkMember (PyStr.join " " payload) sender.2 []).
Proof.
  intros Hnd Hfind [pl Hleave]%command_code_tokens Hjoin
         [pp Hpoll]%command_code_tokens.
  set (cm1 := add_message (name m +:+ " has left the group") <$> delete i cm).
  assert (is_port_available cm1 sender = true) as Hav1.
  { unfold cm1. rewrite available_fmap by done.
    by eapply available_after_delete. }
  set (nm := PyStr.join " " payload).
  set (cm2 := (add_message (nm +:+ " has joined") <$> cm1)
                ++ [mkMember nm sender.2 []]).
  assert (find_member_by_info cm2 sender =
          Some (length (delete i cm), mkMember nm sender.2 [])) as Hfind2.
  { unfold cm2. rewrite find_appended by (by rewrite available_fmap).
    unfold cm1. by rewrite !length_fmap. }
  exists cm2. split; [|done].
  eapply (serve_cons _ _ _ _ _ [_]);
    [by apply (handle_leave _ _ _ _ _ _ Hleave Hfind)|].
  assert (name <$> delete i cm = name <$> cm1) as ->.
  { unfold cm1. symmetry. by apply field_fmap. }
  eapply (serve_cons _ _ _ _ _ [_]); [by apply handle_join|].
  eapply (serve_cons _ _ _ cm2 cm2 [_] cm2 []); [|done].
  rewrite (handle_poll _ _ _ _ _ _ Hpoll Hfind2). simpl. f_equal. f_equal.
  apply list_insert_id. by apply find_lookup in Hfind2 as [-> _].
Qed.

Lemma leave_rejoin_discards_witness :
  let cm := [mkMember "Alice" 5001 ["Bob: secret"]; mkMember "Bob" 5002 []] in
  let alice := ("10.0.0.1", 5001) in
  NoDup (port <$> cm) ∧
  find_member_by_info cm alice =
    Some (0%nat, mkMember "Alice" 5001 ["Bob: secret"]) ∧
  command_code "4" = Some "4" ∧
  PyStr.split_space "1 Alice" = "1" :: ["Alice"] ∧
  command_code "5" = Some "5" ∧
  ∃ cm',
    serve [("4", alice); ("1 Alice", alice); ("5", alice)] cm =
    Ok (cm', [("", alice); ("Bob", alice); ("", alice)]) ∧
    find_member_by_info cm' alice = Some (1%nat, mkMember "Alice" 5001 []).
Proof.
  intros cm alice.
  assert (NoDup (port <$> cm)) as Hnd.
  { apply (bool_decide_unpack _). vm_compute. exact I. }
  split; [exact Hnd|]. split; [reflexivity|]. split; [reflexivity|].
  split; [reflexivity|]. split; [reflexivity|].
  apply (leave_rejoin_discards "4" "1 Alice" "5" ["Alice"] alice cm 0
           (mkMember "Alice" 5001 ["Bob: secret"]) Hnd); reflexivity.
Defined.

(** ** Who is notified *)

Lemma send_message_targets_witness :
  let cm := [mkMember "Alice" 5001 []; mkMember "Bob" 5002 [];
             mkMember "Alice" 5003 []] in
  let alice := ("10.0.0.1", 5001) in
  find_member_by_info cm alice = Some (0%nat, mkMember "Alice" 5001 []) ∧
  cm !! 1%nat = Some (mkMember "Bob" 5002 []) ∧
  1%nat ≠ 0%nat ∧
  ∃ cm' sent,
    send_message ["2"; "hi"] alice cm = Ok (cm', sent) ∧
    cm' !! 1%nat = Some (mkMember "Bob" 5002 ["Alice: hi"]).
Proof.
  intros cm alice.
  split; [reflexivity|]. split; [reflexivity|]. split; [lia|].
  apply (send_message_targets cm alice 0 (mkMember "Alice" 5001 []) "2" ["hi"]
           1 (mkMember "Bob" 5002 [])); [reflexivity|reflexivity|lia].
Defined.

Lemma change_name_targets_witness :
  let cm := [mkMember "Alice" 5001 []; mkMember "Alice" 5002 ["x"]] in
  let alice := ("10.0.0.1", 5001) in
  NoDup (port <$> cm) ∧
  find_member_by_info cm alice = Some (0%nat, mkMember "Alice" 5001 []) ∧
  cm !! 1%nat = Some (mkMember "Alice" 5002 ["x"]) ∧
  1%nat ≠ 0%nat ∧
  ∃ cm' sent,
    change_name ["3"; "Al"] alice cm = Ok (cm', sent) ∧
    cm' !! 1%nat =
      Some (mkMember "Alice" 5002 ["x"; "Alice changed his name to Al"]).
Proof.
  intros cm alice.
  assert (NoDup (port <$> cm)) as Hnd.
  { apply (bool_decide_unpack _). vm_compute. exact I. }
  split; [exact Hnd|]. split; [reflexivity|]. split; [reflexivity|].
  split; [lia|].
  apply (change_name_targets cm alice 0 (mkMember "Alice" 5001 []) "3" ["Al"]
           1 (mkMember "Alice" 5002 ["x"]) Hnd); [reflexivity|reflexivity|lia].
Defined.

(** ** Tokens survive the merge *)

(** X15. [merge_str] loses nothing but the first token: for payload tokens
    that are non-empty in number and free of spaces, splitting the merged
    text on single spaces gives back exactly those tokens (empty tokens,
    which stand for repeated spaces, included). *)
Theorem tokens_round_trip code tokens :
  tokens ≠ [] →
  Forall PyStr.no_space tokens →
  ∃ text,
    merge_str (code :: tokens) = Ok text ∧ PyStr.split_space text = tokens.
Proof.
  intros Hne Hns. exists (PyStr.join " " tokens).
  split; [apply merge_str_cons|].
  unfold PyStr.join. induction Hns as [|tok toks Htok Htoks IH]; [done|].
  destruct toks as [|tok' toks].
  - simpl. by apply split_space_plain.
  - change (String.concat " " (tok :: tok' :: toks))
      with (tok +:+ (" " +:+ String.concat " " (tok' :: toks))).
    rewrite split_space_code by done. by rewrite IH.
Qed.

Lemma tokens_round_trip_witness :
  ["see"; ""; "you"; ""] ≠ [] ∧
  Forall PyStr.no_space ["see"; ""; "you"; ""] ∧
  ∃ text,
    merge_str ("2" :: ["see"; ""; "you"; ""]) = Ok text ∧
    PyStr.split_space text = ["see"; ""; "you"; ""].
Proof.
  assert (Forall PyStr.no_space ["see"; ""; "you"; ""]) as Hns.
  { repeat constructor; discriminate. }
  split; [discriminate|]. split; [exact Hns|].
  apply (tokens_round_trip "2" ["see"; ""; "you"; ""]);
    [discriminate|exact Hns].
Defined.
